(** * RAG_Chatbot: the session controller of the question-answering tool

    A shallow embedding of the Python functions of [RAG_Chatbot.ipynb]:
    [setup_environment], [initialize_llm], [load_and_split_documents],
    [create_vector_store], [create_agent_executor],
    [start_interactive_session] and [main].

    The notebook is a sequential composition of library calls (LangChain,
    Chroma, Groq).  The libraries are collaborators: their behaviour is
    not in the notebook, so every library entry point is a field of the
    class [Collaborators] and the theorems hold for all of them.  What the
    notebook itself decides -- the order of the calls, the guards of
    [main], the [try]/[except] blocks, the sentinel test of the question
    loop and the text that is printed -- is modelled as written.

    How the text splitter cuts a document, what the vector store's
    search returns and how the agent executor iterates over tool calls
    is code of LangChain and Chroma: nothing is assumed about it here,
    and nothing is proved about it.  The notebook's part in it is the
    arguments it passes: a chunk size of 1000 with an overlap of 200,
    [k] equal to 3 for the retriever, and an executor built from the
    agent, its tools and [verbose=True]. *)

From Stdlib Require Import Ascii.
From stdpp Require Import strings gmap pretty.

(** ** Python values *)

(** A line feed, written [\n] in the Python literals. *)
Definition nl : string := String (Ascii.ascii_of_nat 10) EmptyString.

(** [str.lower] on one character.  A [string] is read as a sequence of
    code points below 256; there Python lowers [A]-[Z] and the Latin-1
    capitals U+00C0-U+00DE (U+00D7, the multiplication sign, apart) by
    adding 32, and leaves every other character alone. *)
Definition lower_char (c : ascii) : ascii :=
  let n := Ascii.nat_of_ascii c in
  if (Nat.leb 65 n && Nat.leb n 90)
     || (Nat.leb 192 n && Nat.leb n 222 && negb (Nat.eqb n 215))
  then Ascii.ascii_of_nat (n + 32)
  else c.

(** [s.lower()] *)
Fixpoint lower (s : string) : string :=
  match s with
  | EmptyString => EmptyString
  | String c s' => String (lower_char c) (lower s')
  end.

(** [str.upper] on the letters [a]-[z]; only used to enumerate casings. *)
Definition upper_letter (c : ascii) : ascii :=
  let n := Ascii.nat_of_ascii c in
  if Nat.leb 97 n && Nat.leb n 122 then Ascii.ascii_of_nat (n - 32) else c.

(** Every way of writing the lower-case ASCII word [s] in mixed case. *)
Fixpoint casings (s : string) : list string :=
  match s with
  | EmptyString => [EmptyString]
  | String c s' =>
      let tails := casings s' in
      (String c <$> tails) ++
      (if Ascii.eqb (upper_letter c) c then [] else String (upper_letter c) <$> tails)
  end.

(** A raised Python exception.  [except Exception] catches the classes
    that derive from [Exception]; [KeyboardInterrupt] and [SystemExit]
    derive from [BaseException] only and pass through it.  [exn_str] is
    [str(e)], what an f-string prints for [{e}]. *)
Record exn := Exn {
  exn_is_exception : bool;
  exn_str : string
}.

(** [input()] at end of input. *)
Definition EOFError : exn := Exn true "EOF when reading a line".
(** [d[k]] for a missing key; [str(KeyError(k))] is [repr(k)]. *)
Definition KeyError (k : string) : exn := Exn true ("'" +:+ k +:+ "'").
(** Ctrl-C. *)
Definition KeyboardInterrupt : exn := Exn false "".

(** The outcome of a call: a value or a raised exception. *)
Inductive result (A : Type) : Type :=
  | Return (a : A)
  | Raise (e : exn).
Arguments Return {A} a.
Arguments Raise {A} e.

(** A LangChain [Document]. *)
Record Document := mkDocument {
  page_content : string;
  metadata : gmap string string
}.

(** Truthiness of [Optional[str]]: [None] and [""] are falsy. *)
Definition str_truthy (s : option string) : bool :=
  match s with
  | None => false
  | Some s => negb (bool_decide (s = ""))
  end.

(** ** What the program does to the outside *)

(** The library entry points the notebook calls, with their arguments. *)
Inductive call :=
  | CChatGroq (model_name : string) (temperature : Z)
  | CWebBaseLoader_load (url : string)
  | CSplit_documents (chunk_size chunk_overlap : nat) (docs : list Document)
  | CHuggingFaceEmbeddings (model_name : string)
  | CChroma_from_documents (documents : list Document)
  | CAs_retriever (k : nat)
  | CCreate_retriever_tool (name description : string)
  | CCreate_tool_calling_agent (messages : list (string * string))
  | CAgentExecutor (verbose : bool)
  | CInvoke (inputs : gmap string string).

(** One observable step: a printed line, a prompt shown by [input], a
    line read by [input], or a call into a library. *)
Inductive event :=
  | EPrint (line : string)
  | EPrompt (text : string)
  | ERead (line : string)
  | ECall (c : call).

(** ** The collaborators *)

(** The libraries behind the notebook.  A constructor and the method
    called on the fresh object right after it are one entry point
    ([WebBaseLoader(url).load()], [RecursiveCharacterTextSplitter(..)
    .split_documents(docs)]).  An entry point of the setup is called at
    most once in a run, so its outcome is given as a function of its
    arguments.  The agent is invoked once per question and the language
    model behind it is not deterministic: [AgentExecutor_invoke] reads
    and updates a [World].  The [_bool] fields are the truth values
    Python gives to the objects in [if not x]. *)
Class Collaborators := {
  LLM : Type;
  Embeddings : Type;
  VectorStore : Type;
  Retriever : Type;
  Tool : Type;
  Agent : Type;
  AgentExecutor : Type;
  World : Type;
  (** [os.environ] after [load_dotenv()] *)
  environ : gmap string string;
  ChatGroq : string → Z → result LLM;
  WebBaseLoader_load : string → result (list Document);
  split_documents : nat → nat → list Document → result (list Document);
  HuggingFaceEmbeddings : string → result Embeddings;
  Chroma_from_documents : list Document → Embeddings → result VectorStore;
  as_retriever : VectorStore → nat → result Retriever;
  create_retriever_tool : Retriever → string → string → result Tool;
  create_tool_calling_agent :
    LLM → list Tool → list (string * string) → result Agent;
  AgentExecutor_new : Agent → list Tool → bool → result AgentExecutor;
  AgentExecutor_invoke :
    AgentExecutor → gmap string string → World
    → result (gmap string string) * World;
  LLM_bool : LLM → bool;
  VectorStore_bool : VectorStore → bool;
  AgentExecutor_bool : AgentExecutor → bool
}.

Section Controller.
Context `{Lib : Collaborators}.

(** ** The effect monad *)

(** The lines still to be read from standard input, each without its
    line feed as [input] returns it, and the state of the outside
    world. *)
Record state := mkState {
  stdin : list string;
  world : World
}.

(** A Python computation: from a state to the events it produced, in
    order, its outcome and the state it leaves. *)
Definition IO (A : Type) : Type := state → list event * result A * state.

Definition ret {A} (a : A) : IO A := λ st, ([], Return a, st).

Definition bind {A B} (m : IO A) (f : A → IO B) : IO B := λ st,
  match m st with
  | (t, Return a, st') =>
      match f a st' with
      | (t', r, st'') => (t ++ t', r, st'')
      end
  | (t, Raise e, st') => (t, Raise e, st')
  end.

Definition raise {A} (e : exn) : IO A := λ st, ([], Raise e, st).

(** [print(line)] *)
Definition print (line : string) : IO () := λ st, ([EPrint line], Return (), st).

(** A call into a library whose outcome does not depend on the world. *)
Definition lib {A} (c : call) (r : result A) : IO A := λ st, ([ECall c], r, st).

(** [input(prompt)]: show the prompt, then read a line; [EOFError] when
    standard input is exhausted. *)
Definition input (prompt : string) : IO string := λ st,
  match stdin st with
  | [] => ([EPrompt prompt], Raise EOFError, st)
  | line :: rest =>
      ([EPrompt prompt; ERead line], Return line, mkState rest (world st))
  end.

(** [try: body / except Exception as e: handler e] *)
Definition try_except {A} (body : IO A) (handler : exn → IO A) : IO A := λ st,
  match body st with
  | (t, Raise e, st') =>
      if exn_is_exception e
      then match handler e st' with
           | (t', r, st'') => (t ++ t', r, st'')
           end
      else (t, Raise e, st')
  | done => done
  end.

Notation "x <- m ;; k" := (bind m (λ x, k))
  (at level 100, m at next level, right associativity).
Notation "m ;;; k" := (bind m (λ _, k))
  (at level 100, right associativity).

(** ** The functions of the notebook *)

Definition chunk_size : nat := 1000.
Definition chunk_overlap : nat := 200.
Definition retriever_k : nat := 3.

Definition setup_environment : IO bool :=
  let api_key := environ !! "GROQ_API_KEY" in
  if negb (str_truthy api_key) then
    print "ERROR: Groq API key not found." ;;;
    print "Please create a .env file and add your GROQ_API_KEY to it." ;;;
    ret false
  else
    print "Groq API Key loaded successfully from .env file." ;;;
    ret true.

Definition initialize_llm : IO (option LLM) :=
  try_except
    (llm <- lib (CChatGroq "meta-llama/llama-4-scout-17b-16e-instruct" 0)
                (ChatGroq "meta-llama/llama-4-scout-17b-16e-instruct" 0) ;;
     print "Groq LLM (Llama3-8b) initialized." ;;;
     ret (Some llm))
    (λ e,
     print ("Error initializing Groq LLM: " +:+ exn_str e) ;;;
     ret None).

Definition load_and_split_documents (url : string) : IO (option (list Document)) :=
  try_except
    (docs <- lib (CWebBaseLoader_load url) (WebBaseLoader_load url) ;;
     print ("Loaded " +:+ pretty (length docs) +:+ " document(s) from the web.") ;;;
     splits <- lib (CSplit_documents chunk_size chunk_overlap docs)
                   (split_documents chunk_size chunk_overlap docs) ;;
     print ("Document split into " +:+ pretty (length splits) +:+ " chunks.") ;;;
     ret (Some splits))
    (λ e,
     print ("Error loading or splitting documents: " +:+ exn_str e) ;;;
     ret None).

Definition create_vector_store (splits : list Document) : IO (option VectorStore) :=
  try_except
    (print "Initializing embedding model and vector store (ChromaDB)..." ;;;
     embedding_model <- lib (CHuggingFaceEmbeddings "all-MiniLM-L6-v2")
                            (HuggingFaceEmbeddings "all-MiniLM-L6-v2") ;;
     vectorstore <- lib (CChroma_from_documents splits)
                        (Chroma_from_documents splits embedding_model) ;;
     print "Vector store created successfully." ;;;
     ret (Some vectorstore))
    (λ e,
     print ("Error creating vector store: " +:+ exn_str e) ;;;
     ret None).

Definition tool_name : string := "document_search".
Definition tool_description : string :=
  "Search for information from the provided document. For any questions about the document, you must use this tool!".
Definition system_prompt : string :=
  "You are a helpful assistant. You have access to a tool for searching "
  +:+ "information within a document provided by the user.".
Definition agent_prompt : list (string * string) :=
  [("system", system_prompt);
   ("human", "{input}");
   ("placeholder", "{agent_scratchpad}")].

Definition create_agent_executor (llm : LLM) (vectorstore : VectorStore)
    : IO AgentExecutor :=
  print "Creating RAG tool and agent..." ;;;
  retriever <- lib (CAs_retriever retriever_k)
                   (as_retriever vectorstore retriever_k) ;;
  retriever_tool <- lib (CCreate_retriever_tool tool_name tool_description)
                        (create_retriever_tool retriever tool_name tool_description) ;;
  let tools := [retriever_tool] in
  agent <- lib (CCreate_tool_calling_agent agent_prompt)
               (create_tool_calling_agent llm tools agent_prompt) ;;
  agent_executor <- lib (CAgentExecutor true)
                        (AgentExecutor_new agent tools true) ;;
  print "Agent with RAG tool is ready." ;;;
  ret agent_executor.

(** [agent_executor.invoke(inputs)] *)
Definition invoke (agent_executor : AgentExecutor) (inputs : gmap string string)
    : IO (gmap string string) := λ st,
  match AgentExecutor_invoke agent_executor inputs (world st) with
  | (r, w') => ([ECall (CInvoke inputs)], r, mkState (stdin st) w')
  end.

(** [d[k]] *)
Definition getitem (d : gmap string string) (k : string) : IO string :=
  match d !! k with
  | Some v => ret v
  | None => raise (KeyError k)
  end.

Definition question_prompt : string := nl +:+ "Your Question: ".
Definition goodbye : string := "Exiting the system. Goodbye!".

(** The [try] statement of the question loop: one turn. *)
Definition answer (agent_executor : AgentExecutor) (user_input : string) : IO () :=
  try_except
    (response <- invoke agent_executor {[ "input" := user_input ]} ;;
     output <- getitem response "output" ;;
     print (nl +:+ "Answer: " +:+ output))
    (λ e,
     print (nl +:+ "An error occurred: " +:+ exn_str e)).

(** The [while True] loop, by recursion on the lines left on standard
    input: each iteration reads one.  An iteration that finds none
    raises [EOFError] out of the loop. *)
Fixpoint session_loop (agent_executor : AgentExecutor)
    (lines : list string) (w : World) : list event * result () * state :=
  match lines with
  | [] => ([EPrompt question_prompt], Raise EOFError, mkState [] w)
  | user_input :: rest =>
      let asked := [EPrompt question_prompt; ERead user_input] in
      if bool_decide (lower user_input = "exit") then
        (asked ++ [EPrint goodbye], Return (), mkState rest w)
      else
        match answer agent_executor user_input (mkState rest w) with
        | (t, Return _, st) =>
            match session_loop agent_executor rest (world st) with
            | (t', r, st') => (asked ++ t ++ t', r, st')
            end
        | (t, Raise e, st) => (asked ++ t, Raise e, st)
        end
  end.

Definition banner : list string :=
  [nl +:+ "--- RAG Q&A System is Running ---";
   "You can now ask questions about the content of the provided web page.";
   "Type 'exit' to quit."].

Definition start_interactive_session (agent_executor : AgentExecutor) : IO () :=
  print (nl +:+ "--- RAG Q&A System is Running ---") ;;;
  print "You can now ask questions about the content of the provided web page." ;;;
  print "Type 'exit' to quit." ;;;
  (λ st, session_loop agent_executor (stdin st) (world st)).

Definition url_prompt : string :=
  "Please enter the URL of the document you want to query: ".

Definition main : IO () :=
  ok <- setup_environment ;;
  if negb ok then ret () else
  llm <- initialize_llm ;;
  match llm with
  | None => ret ()
  | Some llm =>
  if negb (LLM_bool llm) then ret () else
  document_url <- input url_prompt ;;
  if bool_decide (document_url = "") then
    print "No URL provided. Exiting."
  else
  doc_splits <- load_and_split_documents document_url ;;
  match doc_splits with
  | None | Some [] => ret ()
  | Some doc_splits =>
  vector_store <- create_vector_store doc_splits ;;
  match vector_store with
  | None => ret ()
  | Some vector_store =>
  if negb (VectorStore_bool vector_store) then ret () else
  agent_executor <- create_agent_executor llm vector_store ;;
  if negb (AgentExecutor_bool agent_executor) then ret () else
  start_interactive_session agent_executor
  end end end.

End Controller.

(** ** Reading a trace *)

(** The inputs of the agent invocations of a trace, in order. *)
Definition invocations (t : list event) : list (gmap string string) :=
  omap (λ ev, match ev with ECall (CInvoke i) => Some i | _ => None end) t.

(** The prompts shown by [input]. *)
Definition prompts (t : list event) : list string :=
  omap (λ ev, match ev with EPrompt p => Some p | _ => None end) t.

(** The library calls. *)
Definition calls (t : list event) : list call :=
  omap (λ ev, match ev with ECall c => Some c | _ => None end) t.

Definition is_ingestion_call (c : call) : bool :=
  match c with
  | CWebBaseLoader_load _ | CSplit_documents _ _ _ => true
  | _ => false
  end.

Definition is_index_call (c : call) : bool :=
  match c with
  | CHuggingFaceEmbeddings _ | CChroma_from_documents _ => true
  | _ => false
  end.

(** An event of the question loop: a line of its banner, its prompt or
    an invocation of the agent. *)
Definition is_session_event (ev : event) : bool :=
  match ev with
  | EPrint l => existsb (String.eqb l) banner
  | EPrompt p => String.eqb p question_prompt
  | ECall (CInvoke _) => true
  | _ => false
  end.

Definition session_started (t : list event) : bool := existsb is_session_event t.

(** ** Setup failures *)

Inductive cause := NoCredential | NoURL | Ingestion | IndexBuild.

Inductive setup_failure :=
  | MissingCredential
  | EmptyURL
  | IngestionFailure (e : exn)
  | IndexBuildFailure (e : exn).

Definition cause_of (f : setup_failure) : cause :=
  match f with
  | MissingCredential => NoCredential
  | EmptyURL => NoURL
  | IngestionFailure _ => Ingestion
  | IndexBuildFailure _ => IndexBuild
  end.

(** The line the program prints for a failure. *)
Definition failure_message (f : setup_failure) : string :=
  match f with
  | MissingCredential => "ERROR: Groq API key not found."
  | EmptyURL => "No URL provided. Exiting."
  | IngestionFailure e => "Error loading or splitting documents: " +:+ exn_str e
  | IndexBuildFailure e => "Error creating vector store: " +:+ exn_str e
  end.

Section Circumstances.
Context `{Lib : Collaborators}.

(** The API key is set and not empty. *)
Definition credential_present : Prop :=
  str_truthy (environ !! "GROQ_API_KEY") = true.

(** The language-model client is constructed, and is a true object. *)
Definition llm_ready (llm : LLM) : Prop :=
  ChatGroq "meta-llama/llama-4-scout-17b-16e-instruct" 0 = Return llm
  ∧ LLM_bool llm = true.

(** The user typed the non-empty [url] at the URL prompt. *)
Definition url_given (st : state) (url : string) (rest : list string) : Prop :=
  stdin st = url :: rest ∧ url ≠ "".

(** When a setup failure happens, in terms of what the environment, the
    user and the libraries do. *)
Definition failure_occurs (f : setup_failure) (st : state) : Prop :=
  match f with
  | MissingCredential => str_truthy (environ !! "GROQ_API_KEY") = false
  | EmptyURL =>
      credential_present ∧ (∃ llm, llm_ready llm)
      ∧ ∃ rest, stdin st = "" :: rest
  | IngestionFailure e =>
      credential_present ∧ (∃ llm, llm_ready llm)
      ∧ exn_is_exception e = true
      ∧ ∃ url rest, url_given st url rest
        ∧ (WebBaseLoader_load url = Raise e
           ∨ ∃ docs, WebBaseLoader_load url = Return docs
               ∧ split_documents chunk_size chunk_overlap docs = Raise e)
  | IndexBuildFailure e =>
      credential_present ∧ (∃ llm, llm_ready llm)
      ∧ exn_is_exception e = true
      ∧ ∃ url rest docs splits, url_given st url rest
        ∧ WebBaseLoader_load url = Return docs
        ∧ split_documents chunk_size chunk_overlap docs = Return splits
        ∧ splits ≠ []
        ∧ (HuggingFaceEmbeddings "all-MiniLM-L6-v2" = Raise e
           ∨ ∃ em, HuggingFaceEmbeddings "all-MiniLM-L6-v2" = Return em
               ∧ Chroma_from_documents splits em = Raise e)
  end.

(** The dictionary the loop hands to the agent for a question. *)
Definition question (user_input : string) : gmap string string :=
  {[ "input" := user_input ]}.

(** Nobody interrupts the session that asks the questions [qs] from the
    world [w]: no turn of it raises an error outside class [Exception].
    The world of a turn is the one the turn before it left. *)
Fixpoint uninterrupted (ae : AgentExecutor) (qs : list string) (w : World) : Prop :=
  match qs with
  | [] => True
  | q :: qs' =>
      match AgentExecutor_invoke ae (question q) w with
      | (Return _, w') => uninterrupted ae qs' w'
      | (Raise e, w') => exn_is_exception e = true ∧ uninterrupted ae qs' w'
      end
  end.

(** What [main] prints and calls up to and including the URL prompt. *)
Definition setup_trace (url : string) : list event :=
  [EPrint "Groq API Key loaded successfully from .env file.";
   ECall (CChatGroq "meta-llama/llama-4-scout-17b-16e-instruct" 0);
   EPrint "Groq LLM (Llama3-8b) initialized.";
   EPrompt url_prompt;
   ERead url].

(** What [main] has done once ingestion has produced [splits]. *)
Definition ingestion_trace (url : string) (docs splits : list Document) : list event :=
  setup_trace url ++
  [ECall (CWebBaseLoader_load url);
   EPrint ("Loaded " +:+ pretty (length docs) +:+ " document(s) from the web.");
   ECall (CSplit_documents chunk_size chunk_overlap docs);
   EPrint ("Document split into " +:+ pretty (length splits) +:+ " chunks.")].

(** The four library calls of [create_agent_executor] succeed and give
    the executor [ae]. *)
Definition agent_built (llm : LLM) (vs : VectorStore) (ae : AgentExecutor) : Prop :=
  ∃ retriever tool agent,
    as_retriever vs retriever_k = Return retriever
    ∧ create_retriever_tool retriever tool_name tool_description = Return tool
    ∧ create_tool_calling_agent llm [tool] agent_prompt = Return agent
    ∧ AgentExecutor_new agent [tool] true = Return ae.

(** One of the four library calls of [create_agent_executor] raises [e],
    those before it having succeeded. *)
Definition agent_creation_fails (llm : LLM) (vs : VectorStore) (e : exn) : Prop :=
  as_retriever vs retriever_k = Raise e
  ∨ ∃ retriever, as_retriever vs retriever_k = Return retriever
    ∧ (create_retriever_tool retriever tool_name tool_description = Raise e
       ∨ ∃ tool,
           create_retriever_tool retriever tool_name tool_description = Return tool
           ∧ (create_tool_calling_agent llm [tool] agent_prompt = Raise e
              ∨ ∃ agent,
                  create_tool_calling_agent llm [tool] agent_prompt = Return agent
                  ∧ AgentExecutor_new agent [tool] true = Raise e)).

(** Ingestion gives the chunks [splits], not none, and the vector store
    [vs] is built from them and is a true object. *)
Definition index_built (url : string) (docs splits : list Document)
    (vs : VectorStore) : Prop :=
  WebBaseLoader_load url = Return docs
  ∧ split_documents chunk_size chunk_overlap docs = Return splits
  ∧ splits ≠ []
  ∧ (∃ em, HuggingFaceEmbeddings "all-MiniLM-L6-v2" = Return em
       ∧ Chroma_from_documents splits em = Return vs)
  ∧ VectorStore_bool vs = true.

(** What [main] has done once the vector store is built. *)
Definition index_trace (url : string) (docs splits : list Document) : list event :=
  ingestion_trace url docs splits ++
  [EPrint "Initializing embedding model and vector store (ChromaDB)...";
   ECall (CHuggingFaceEmbeddings "all-MiniLM-L6-v2");
   ECall (CChroma_from_documents splits);
   EPrint "Vector store created successfully."].

(** The events of a [create_agent_executor] that succeeds. *)
Definition agent_trace : list event :=
  [EPrint "Creating RAG tool and agent...";
   ECall (CAs_retriever retriever_k);
   ECall (CCreate_retriever_tool tool_name tool_description);
   ECall (CCreate_tool_calling_agent agent_prompt);
   ECall (CAgentExecutor true);
   EPrint "Agent with RAG tool is ready."].

End Circumstances.

(** ** Scripted collaborators *)

(** Collaborators that follow a script: every library call has a fixed
    outcome and the agent answers from a list of replies, one per call.
    They serve to run the controller on concrete sessions. *)
Record script := mkScript {
  s_environ : gmap string string;
  s_llm : result ();
  s_load : result (list Document);
  s_split : result (list Document);
  s_embed : result ();
  s_chroma : result ()
}.

Definition scripted (s : script) : Collaborators := {|
  LLM := ();
  Embeddings := ();
  VectorStore := ();
  Retriever := ();
  Tool := ();
  Agent := ();
  AgentExecutor := ();
  World := list (result (gmap string string));
  environ := s_environ s;
  ChatGroq := λ _ _, s_llm s;
  WebBaseLoader_load := λ _, s_load s;
  split_documents := λ _ _ _, s_split s;
  HuggingFaceEmbeddings := λ _, s_embed s;
  Chroma_from_documents := λ _ _, s_chroma s;
  as_retriever := λ _ _, Return ();
  create_retriever_tool := λ _ _ _, Return ();
  create_tool_calling_agent := λ _ _ _, Return ();
  AgentExecutor_new := λ _ _ _, Return ();
  AgentExecutor_invoke := λ _ _ w,
    match w with
    | [] => (Raise KeyboardInterrupt, [])
    | r :: w' => (r, w')
    end;
  LLM_bool := λ _, true;
  VectorStore_bool := λ _, true;
  AgentExecutor_bool := λ _, true
|}.

Definition page (text : string) : Document := mkDocument text ∅.

(** A run in which every library call succeeds. *)
Definition healthy : script := {|
  s_environ := {[ "GROQ_API_KEY" := "gsk_test" ]};
  s_llm := Return ();
  s_load := Return [page "LLMs are large."];
  s_split := Return [page "LLMs are large."];
  s_embed := Return ();
  s_chroma := Return ()
|}.

Definition ConnectionError : exn := Exn true "Connection error.".
(** The agent's reply with [text] as its answer. *)
Definition reply (text : string) : result (gmap string string) :=
  Return {[ "output" := text ]}.

Definition no_key : script :=
  mkScript ∅ (Return ()) (s_load healthy) (s_split healthy) (Return ()) (Return ()).
Definition empty_key : script :=
  mkScript {[ "GROQ_API_KEY" := "" ]} (Return ()) (s_load healthy) (s_split healthy)
           (Return ()) (Return ()).
Definition unreachable : script :=
  mkScript (s_environ healthy) (Return ()) (Raise ConnectionError) (s_split healthy)
           (Return ()) (Return ()).
Definition blank_page : script :=
  mkScript (s_environ healthy) (Return ()) (Return [page ""]) (Return [])
           (Return ()) (Return ()).
Definition disk_full : script :=
  mkScript (s_environ healthy) (Return ()) (s_load healthy) (s_split healthy)
           (Return ()) (Raise (Exn true "disk full")).

(** [main] on scripted collaborators: the events, the outcome and the
    lines left unread. *)
Definition run (s : script) (lines : list string)
    (replies : list (result (gmap string string)))
    : list event * result () * list string :=
  match main (Lib := scripted s) (mkState (Lib := scripted s) lines replies) with
  | (t, r, st) => (t, r, stdin (Lib := scripted s) st)
  end.

(** The events of a healthy setup, up to the banner of the question loop. *)
Definition healthy_setup (url : string) : list event :=
  ingestion_trace url [page "LLMs are large."] [page "LLMs are large."]
  ++ [EPrint "Initializing embedding model and vector store (ChromaDB)...";
      ECall (CHuggingFaceEmbeddings "all-MiniLM-L6-v2");
      ECall (CChroma_from_documents [page "LLMs are large."]);
      EPrint "Vector store created successfully.";
      EPrint "Creating RAG tool and agent...";
      ECall (CAs_retriever 3);
      ECall (CCreate_retriever_tool tool_name tool_description);
      ECall (CCreate_tool_calling_agent agent_prompt);
      ECall (CAgentExecutor true);
      EPrint "Agent with RAG tool is ready."]
  ++ (EPrint <$> banner).

(** Collaborators as [scripted s], apart from the agent executor: its
    construction has the outcome [executor], and it is invoked as [inv]
    says, over a world of type [W]. *)
Definition scripted_with (s : script) (W : Type) (executor : result ())
    (inv : gmap string string → W → result (gmap string string) * W)
    : Collaborators := {|
  LLM := ();
  Embeddings := ();
  VectorStore := ();
  Retriever := ();
  Tool := ();
  Agent := ();
  AgentExecutor := ();
  World := W;
  environ := s_environ s;
  ChatGroq := λ _ _, s_llm s;
  WebBaseLoader_load := λ _, s_load s;
  split_documents := λ _ _ _, s_split s;
  HuggingFaceEmbeddings := λ _, s_embed s;
  Chroma_from_documents := λ _ _, s_chroma s;
  as_retriever := λ _ _, Return ();
  create_retriever_tool := λ _ _ _, Return ();
  create_tool_calling_agent := λ _ _ _, Return ();
  AgentExecutor_new := λ _ _ _, executor;
  AgentExecutor_invoke := λ _, inv;
  LLM_bool := λ _, true;
  VectorStore_bool := λ _, true;
  AgentExecutor_bool := λ _, true
|}.

(** The constructor of the agent executor rejects its arguments. *)
Definition ValidationError : exn := Exn true "1 validation error for AgentExecutor".
Definition broken_executor : Collaborators :=
  scripted_with healthy () (Raise ValidationError) (λ _ w, (Raise ConnectionError, w)).

(** The language-model client cannot be constructed. *)
Definition AuthenticationError : exn := Exn true "Invalid API Key".
Definition bad_key : script :=
  mkScript (s_environ healthy) (Raise AuthenticationError) (s_load healthy)
           (s_split healthy) (Return ()) (Return ()).

(** Inputs that look like the sentinel but are not: nothing typed, and
    the word with blanks around it. *)
Definition near_sentinels : list string := [""; " exit "; " exit"; "exit "].

(** * Properties *)

(** ** The configuration *)

Lemma configuration :
  chunk_size = 1000 ∧ chunk_overlap = 200 ∧ retriever_k = 3
  ∧ 0 < chunk_size ∧ chunk_overlap < chunk_size.
Proof. unfold chunk_size, chunk_overlap, retriever_k. repeat split; lia. Qed.

(** ** The sentinel test *)

(** A character that lowers to an ASCII character is that character or
    its capital. *)
Lemma lower_char_ascii_inv c d :
  Ascii.nat_of_ascii d < 128 → lower_char c = d → c = d ∨ c = upper_letter d.
Proof.
  intros Hd <-. revert Hd.
  destruct c as [[] [] [] [] [] [] [] []]; vm_compute; intros Hd;
    first [ left; reflexivity | right; reflexivity | exfalso; lia ].
Qed.

Lemma casings_exit_lower : Forall (λ s, lower s = "exit") (casings "exit").
Proof. vm_compute. repeat constructor. Qed.

(** The inputs that lower to the sentinel are its sixteen casings. *)
Lemma lower_exit_iff s : lower s = "exit" ↔ s ∈ casings "exit".
Proof.
  split.
  - destruct s as [|a [|b [|c [|d [|? ?]]]]]; simpl; intros H; try discriminate H.
    injection H as Ha Hb Hc Hd.
    apply lower_char_ascii_inv in Ha, Hb, Hc, Hd; try (vm_compute; lia).
    apply list_elem_of_In.
    destruct Ha as [-> | ->], Hb as [-> | ->], Hc as [-> | ->], Hd as [-> | ->];
      vm_compute; tauto.
  - intros H. exact (proj1 (Forall_forall _ _) casings_exit_lower s H).
Qed.

Lemma near_sentinels_lower : Forall (λ s, lower s ≠ "exit") near_sentinels.
Proof. repeat constructor; vm_compute; discriminate. Qed.

Section Properties.
Context `{Lib : Collaborators}.

(** ** The question loop *)

(** One iteration of the loop. *)
Lemma session_loop_cons (ae : AgentExecutor) user_input rest w :
  session_loop ae (user_input :: rest) w =
    let asked := [EPrompt question_prompt; ERead user_input] in
    if bool_decide (lower user_input = "exit") then
      (asked ++ [EPrint goodbye], Return (), mkState rest w)
    else
      match answer ae user_input (mkState rest w) with
      | (t, Return _, st) =>
          match session_loop ae rest (world st) with
          | (t', r, st') => (asked ++ t ++ t', r, st')
          end
      | (t, Raise e, st) => (asked ++ t, Raise e, st)
      end.
Proof. reflexivity. Qed.

(** At the end of input the loop does not return: [input] raises. *)
Lemma session_loop_eof (ae : AgentExecutor) w :
  session_loop ae [] w = ([EPrompt question_prompt], Raise EOFError, mkState [] w).
Proof. reflexivity. Qed.

(** The loop reads, it never adds to standard input, and it returns only
    through the sentinel: a run that returns has printed the goodbye. *)
Lemma session_loop_returns_by_sentinel (ae : AgentExecutor) lines w t st :
  session_loop ae lines w = (t, Return (), st) → EPrint goodbye ∈ t.
Proof.
  revert w t st. induction lines as [|user_input rest IH]; intros w t st.
  - rewrite session_loop_eof. intros [=].
  - rewrite session_loop_cons. simpl. case_bool_decide as Hs.
    + intros [= <- <-]. set_solver.
    + destruct (answer ae user_input (mkState rest w)) as [[t1 [[]|e]] st1].
      * destruct (session_loop ae rest (world st1)) as [[t2 r2] st2] eqn:Hrest.
        intros [= <- -> <-]. apply IH in Hrest. set_solver.
      * intros [=].
Qed.

(** An exception that [except Exception] does not catch leaves the loop. *)
Lemma turn_interrupt_escapes (ae : AgentExecutor) user_input rest w e w' :
  lower user_input ≠ "exit" →
  AgentExecutor_invoke ae {[ "input" := user_input ]} w = (Raise e, w') →
  exn_is_exception e = false →
  session_loop ae (user_input :: rest) w =
    ([EPrompt question_prompt; ERead user_input;
      ECall (CInvoke {[ "input" := user_input ]})], Raise e, mkState rest w').
Proof.
  intros Hne Hinv He.
  rewrite session_loop_cons, bool_decide_eq_false_2 by done.
  unfold answer, try_except, bind, invoke. simpl.
  by rewrite Hinv, He.
Qed.

(** A reply without the key [output] is a turn error too: the [KeyError]
    is raised inside the [try]. *)
Lemma turn_without_output_is_recovered (ae : AgentExecutor) user_input rest w resp w' :
  lower user_input ≠ "exit" →
  AgentExecutor_invoke ae {[ "input" := user_input ]} w = (Return resp, w') →
  resp !! "output" = None →
  session_loop ae (user_input :: rest) w =
    let '(t, r, st) := session_loop ae rest w' in
    ([EPrompt question_prompt; ERead user_input;
      ECall (CInvoke {[ "input" := user_input ]});
      EPrint (nl +:+ "An error occurred: 'output'")] ++ t, r, st).
Proof.
  intros Hne Hinv Hout.
  rewrite session_loop_cons, bool_decide_eq_false_2 by done.
  unfold answer, try_except, bind, invoke, getitem. simpl.
  rewrite Hinv. simpl. rewrite Hout. simpl.
  by destruct (session_loop ae rest w') as [[t r] st].
Qed.

(** A turn that succeeds prints the answer and goes on. *)
Lemma turn_answered (ae : AgentExecutor) user_input rest w resp output w' :
  lower user_input ≠ "exit" →
  AgentExecutor_invoke ae {[ "input" := user_input ]} w = (Return resp, w') →
  resp !! "output" = Some output →
  session_loop ae (user_input :: rest) w =
    let '(t, r, st) := session_loop ae rest w' in
    ([EPrompt question_prompt; ERead user_input;
      ECall (CInvoke {[ "input" := user_input ]});
      EPrint (nl +:+ "Answer: " +:+ output)] ++ t, r, st).
Proof.
  intros Hne Hinv Hout.
  rewrite session_loop_cons, bool_decide_eq_false_2 by done.
  unfold answer, try_except, bind, invoke, getitem. simpl.
  rewrite Hinv. simpl. rewrite Hout. simpl.
  by destruct (session_loop ae rest w') as [[t r] st].
Qed.

Lemma invocations_app t1 t2 :
  invocations (t1 ++ t2) = invocations t1 ++ invocations t2.
Proof. unfold invocations. apply omap_app. Qed.

(** X6.  A whole session that nobody interrupts: the questions typed
    before the first sentinel are handed to the agent, each once and in
    order, whether or not some of the turns fail; the session then
    returns and what was typed after the sentinel stays unread. *)
Lemma session_until_sentinel (ae : AgentExecutor) qs s rest w :
  uninterrupted ae qs w →
  Forall (λ q, lower q ≠ "exit") qs →
  lower s = "exit" →
  ∃ t w',
    session_loop ae (qs ++ s :: rest) w = (t, Return (), mkState rest w')
    ∧ invocations t = question <$> qs.
Proof.
  intros Hcatch Hqs Hs. revert w Hcatch.
  induction Hqs as [|q qs Hq Hqs IH]; intros w Hcatch.
  - exists [EPrompt question_prompt; ERead s; EPrint goodbye], w.
    split; [ | reflexivity ].
    simpl app. by rewrite session_loop_cons, bool_decide_eq_true_2.
  - assert (∃ line w1, uninterrupted ae qs w1 ∧
      session_loop ae ((q :: qs) ++ s :: rest) w =
        let '(t, r, st) := session_loop ae (qs ++ s :: rest) w1 in
        ([EPrompt question_prompt; ERead q; ECall (CInvoke (question q));
          EPrint line] ++ t, r, st)) as (line & w1 & Hnext & Hturn).
    { simpl app. simpl in Hcatch. unfold question in Hcatch.
      destruct (AgentExecutor_invoke ae {[ "input" := q ]} w)
        as [[resp | e] w1] eqn:Hinv.
      - destruct (resp !! "output") as [output|] eqn:Hout.
        + eexists _, w1. split; [ exact Hcatch | ].
          by apply turn_answered with (resp := resp).
        + eexists _, w1. split; [ exact Hcatch | ].
          by apply turn_without_output_is_recovered with (resp := resp).
      - destruct Hcatch as [He Hcatch].
        eexists _, w1. split; [ exact Hcatch | ].
        rewrite session_loop_cons, bool_decide_eq_false_2 by done.
        unfold answer, try_except, bind, invoke. simpl.
        rewrite Hinv, He. simpl.
        by destruct (session_loop ae (qs ++ s :: rest) w1) as [[t r] st]. }
    destruct (IH w1 Hnext) as (t & w' & Hloop & Hinvs).
    rewrite Hloop in Hturn.
    eexists _, w'. split; [ exact Hturn | ].
    rewrite invocations_app, Hinvs. reflexivity.
Qed.

(** C3.  An input whose lower-case form is [exit] -- the sentinel in any
    letter casing -- ends the session at once: the loop prints the
    goodbye and returns, the agent is not invoked on that input, the
    world is untouched and the lines after it stay unread.  The same
    holds when it is the first line typed after the banner. *)
Theorem exit_sentinel_ends_session (ae : AgentExecutor) user_input rest w :
  lower user_input = "exit" ∨ user_input ∈ casings "exit" →
  session_loop ae (user_input :: rest) w =
    ([EPrompt question_prompt; ERead user_input; EPrint goodbye],
     Return (), mkState rest w)
  ∧ invocations (session_loop ae (user_input :: rest) w).1.1 = []
  ∧ start_interactive_session ae (mkState (user_input :: rest) w) =
      ((EPrint <$> banner)
       ++ [EPrompt question_prompt; ERead user_input; EPrint goodbye],
       Return (), mkState rest w).
Proof.
  intros Hs.
  assert (lower user_input = "exit") as Hlow.
  { destruct Hs as [Hs | Hs]; [ exact Hs | by apply lower_exit_iff ]. }
  assert (session_loop ae (user_input :: rest) w =
    ([EPrompt question_prompt; ERead user_input; EPrint goodbye],
     Return (), mkState rest w)) as Hloop.
  { by rewrite session_loop_cons, bool_decide_eq_true_2. }
  split; [ exact Hloop | split ].
  - by rewrite Hloop.
  - unfold start_interactive_session, bind, print. cbn [stdin world].
    by rewrite Hloop.
Qed.

(** C4.  When the agent invocation of a turn raises an error, the
    [except] clause catches it, a line with the cause is printed, and
    the loop goes on to the next question with the same agent executor
    (which holds the index): what follows is the run of the loop on the
    remaining input. *)
Theorem turn_error_is_recovered (ae : AgentExecutor) user_input rest w e w' :
  lower user_input ≠ "exit" →
  AgentExecutor_invoke ae {[ "input" := user_input ]} w = (Raise e, w') →
  exn_is_exception e = true →
  session_loop ae (user_input :: rest) w =
    let '(t, r, st) := session_loop ae rest w' in
    ([EPrompt question_prompt; ERead user_input;
      ECall (CInvoke {[ "input" := user_input ]});
      EPrint (nl +:+ "An error occurred: " +:+ exn_str e)] ++ t, r, st).
Proof.
  intros Hne Hinv He.
  rewrite session_loop_cons, bool_decide_eq_false_2 by done.
  unfold answer, try_except, bind, invoke. simpl.
  rewrite Hinv, He. simpl.
  by destruct (session_loop ae rest w') as [[t r] st].
Qed.

(** C9.  The input is compared as typed, lowered and nothing else: an
    input whose lower-case form is not [exit] -- the empty line and the
    word with blanks around it among them -- is not the sentinel.  The
    loop hands it unchanged to the agent as the question, and the turn
    is what the agent makes of it: its answer is printed, or the line
    of its error, and the loop goes on with the next line in the world
    the agent left; an error that [except Exception] does not catch
    leaves the loop.  The goodbye is not printed for this input. *)
Theorem non_sentinel_is_forwarded (ae : AgentExecutor) user_input rest w :
  lower user_input ≠ "exit" ∨ user_input ∈ near_sentinels →
  session_loop ae (user_input :: rest) w =
    let forwarded :=
      [EPrompt question_prompt; ERead user_input;
       ECall (CInvoke {[ "input" := user_input ]})] in
    match AgentExecutor_invoke ae {[ "input" := user_input ]} w with
    | (Return response, w') =>
        let line :=
          match response !! "output" with
          | Some output => nl +:+ "Answer: " +:+ output
          | None => nl +:+ "An error occurred: 'output'"
          end in
        let '(t, r, st) := session_loop ae rest w' in
        (forwarded ++ EPrint line :: t, r, st)
    | (Raise e, w') =>
        if exn_is_exception e then
          let '(t, r, st) := session_loop ae rest w' in
          (forwarded ++ EPrint (nl +:+ "An error occurred: " +:+ exn_str e) :: t,
           r, st)
        else (forwarded, Raise e, mkState rest w')
    end.
Proof.
  intros Hs.
  assert (lower user_input ≠ "exit") as Hne.
  { destruct Hs as [Hs | Hs]; [ exact Hs | ].
    exact (proj1 (Forall_forall _ _) near_sentinels_lower _ Hs). }
  cbv zeta.
  destruct (AgentExecutor_invoke ae {[ "input" := user_input ]} w)
    as [[resp | e] w'] eqn:Hinv.
  - destruct (resp !! "output") as [output|] eqn:Hout.
    + rewrite (turn_answered _ _ _ _ _ _ _ Hne Hinv Hout).
      by destruct (session_loop ae rest w') as [[t r] st].
    + rewrite (turn_without_output_is_recovered _ _ _ _ _ _ Hne Hinv Hout).
      by destruct (session_loop ae rest w') as [[t r] st].
  - destruct (exn_is_exception e) eqn:He.
    + rewrite session_loop_cons, bool_decide_eq_false_2 by done.
      unfold answer, try_except, bind, invoke. simpl.
      rewrite Hinv, He. simpl.
      by destruct (session_loop ae rest w') as [[t r] st].
    + by rewrite (turn_interrupt_escapes _ _ _ _ _ _ Hne Hinv He).
Qed.

(** ** The paths of [main] *)

Ltac run_main :=
  unfold main, setup_environment, initialize_llm, load_and_split_documents,
    create_vector_store, bind, try_except, lib, print, ret, input; simpl.

Ltac past_setup Hkey Hllm Hin :=
  let Hc := fresh in let Hb := fresh in
  destruct Hllm as [Hc Hb];
  run_main; rewrite Hkey; simpl; rewrite Hc; simpl; rewrite Hb; simpl;
  rewrite Hin; simpl.

Lemma main_missing_credential st :
  str_truthy (environ !! "GROQ_API_KEY") = false →
  main st =
    ([EPrint "ERROR: Groq API key not found.";
      EPrint "Please create a .env file and add your GROQ_API_KEY to it."],
     Return (), st).
Proof. intros Hkey. run_main. by rewrite Hkey. Qed.

Lemma main_empty_url st llm rest :
  credential_present → llm_ready llm → stdin st = "" :: rest →
  main st =
    (setup_trace "" ++ [EPrint "No URL provided. Exiting."],
     Return (), mkState rest (world st)).
Proof. intros Hkey Hllm Hin. by past_setup Hkey Hllm Hin. Qed.

Lemma main_load_fails st llm url rest e :
  credential_present → llm_ready llm → url_given st url rest →
  exn_is_exception e = true →
  WebBaseLoader_load url = Raise e →
  main st =
    (setup_trace url ++
     [ECall (CWebBaseLoader_load url);
      EPrint ("Error loading or splitting documents: " +:+ exn_str e)],
     Return (), mkState rest (world st)).
Proof.
  intros Hkey Hllm [Hin Hurl] He Hload. past_setup Hkey Hllm Hin.
  rewrite bool_decide_eq_false_2 by done.
  by rewrite Hload, He.
Qed.

Lemma main_split_fails st llm url rest docs e :
  credential_present → llm_ready llm → url_given st url rest →
  exn_is_exception e = true →
  WebBaseLoader_load url = Return docs →
  split_documents chunk_size chunk_overlap docs = Raise e →
  main st =
    (setup_trace url ++
     [ECall (CWebBaseLoader_load url);
      EPrint ("Loaded " +:+ pretty (length docs) +:+ " document(s) from the web.");
      ECall (CSplit_documents chunk_size chunk_overlap docs);
      EPrint ("Error loading or splitting documents: " +:+ exn_str e)],
     Return (), mkState rest (world st)).
Proof.
  intros Hkey Hllm [Hin Hurl] He Hload Hsplit. past_setup Hkey Hllm Hin.
  rewrite bool_decide_eq_false_2 by done.
  rewrite Hload. simpl. by rewrite Hsplit, He.
Qed.

Lemma main_no_chunks st llm url rest docs :
  credential_present → llm_ready llm → url_given st url rest →
  WebBaseLoader_load url = Return docs →
  split_documents chunk_size chunk_overlap docs = Return [] →
  main st = (ingestion_trace url docs [], Return (), mkState rest (world st)).
Proof.
  intros Hkey Hllm [Hin Hurl] Hload Hsplit. past_setup Hkey Hllm Hin.
  rewrite bool_decide_eq_false_2 by done.
  rewrite Hload. simpl. by rewrite Hsplit.
Qed.

Lemma main_embedding_fails st llm url rest docs splits e :
  credential_present → llm_ready llm → url_given st url rest →
  exn_is_exception e = true →
  WebBaseLoader_load url = Return docs →
  split_documents chunk_size chunk_overlap docs = Return splits →
  splits ≠ [] →
  HuggingFaceEmbeddings "all-MiniLM-L6-v2" = Raise e →
  main st =
    (ingestion_trace url docs splits ++
     [EPrint "Initializing embedding model and vector store (ChromaDB)...";
      ECall (CHuggingFaceEmbeddings "all-MiniLM-L6-v2");
      EPrint ("Error creating vector store: " +:+ exn_str e)],
     Return (), mkState rest (world st)).
Proof.
  intros Hkey Hllm [Hin Hurl] He Hload Hsplit Hne Hemb. past_setup Hkey Hllm Hin.
  rewrite bool_decide_eq_false_2 by done.
  rewrite Hload. simpl. rewrite Hsplit. simpl.
  destruct splits as [|d splits]; [ done | ].
  by rewrite Hemb, He.
Qed.

Lemma main_chroma_fails st llm url rest docs splits em e :
  credential_present → llm_ready llm → url_given st url rest →
  exn_is_exception e = true →
  WebBaseLoader_load url = Return docs →
  split_documents chunk_size chunk_overlap docs = Return splits →
  splits ≠ [] →
  HuggingFaceEmbeddings "all-MiniLM-L6-v2" = Return em →
  Chroma_from_documents splits em = Raise e →
  main st =
    (ingestion_trace url docs splits ++
     [EPrint "Initializing embedding model and vector store (ChromaDB)...";
      ECall (CHuggingFaceEmbeddings "all-MiniLM-L6-v2");
      ECall (CChroma_from_documents splits);
      EPrint ("Error creating vector store: " +:+ exn_str e)],
     Return (), mkState rest (world st)).
Proof.
  intros Hkey Hllm [Hin Hurl] He Hload Hsplit Hne Hemb Hchroma.
  past_setup Hkey Hllm Hin.
  rewrite bool_decide_eq_false_2 by done.
  rewrite Hload. simpl. rewrite Hsplit. simpl.
  destruct splits as [|d splits]; [ done | ].
  rewrite Hemb. simpl. by rewrite Hchroma, He.
Qed.

Lemma main_llm_fails st e :
  credential_present → exn_is_exception e = true →
  ChatGroq "meta-llama/llama-4-scout-17b-16e-instruct" 0 = Raise e →
  main st =
    ([EPrint "Groq API Key loaded successfully from .env file.";
      ECall (CChatGroq "meta-llama/llama-4-scout-17b-16e-instruct" 0);
      EPrint ("Error initializing Groq LLM: " +:+ exn_str e)],
     Return (), st).
Proof.
  intros Hkey He Hllm. run_main. rewrite Hkey. simpl. by rewrite Hllm, He.
Qed.

(** ** What the notebook passes to the libraries *)

(** The splitter is called with a chunk size of 1000 and an overlap of
    200, on the documents the loader returned. *)
Lemma load_and_split_documents_calls_splitter url docs st :
  WebBaseLoader_load url = Return docs →
  ∃ t r st',
    load_and_split_documents url st =
      (ECall (CWebBaseLoader_load url)
       :: EPrint ("Loaded " +:+ pretty (length docs) +:+ " document(s) from the web.")
       :: ECall (CSplit_documents 1000 200 docs) :: t, r, st').
Proof.
  intros Hload.
  unfold load_and_split_documents, try_except, bind, lib, print, ret. simpl.
  rewrite Hload. simpl.
  destruct (split_documents chunk_size chunk_overlap docs) as [splits | e]; simpl.
  - eauto.
  - destruct (exn_is_exception e); simpl; eauto.
Qed.

(** The retriever is asked for with [k] equal to 3, and the executor is
    built from the agent, the tools and [verbose=True], nothing else. *)
Lemma create_agent_executor_calls llm vs st retriever tool agent ae :
  as_retriever vs retriever_k = Return retriever →
  create_retriever_tool retriever tool_name tool_description = Return tool →
  create_tool_calling_agent llm [tool] agent_prompt = Return agent →
  AgentExecutor_new agent [tool] true = Return ae →
  create_agent_executor llm vs st =
    ([EPrint "Creating RAG tool and agent...";
      ECall (CAs_retriever 3);
      ECall (CCreate_retriever_tool "document_search" tool_description);
      ECall (CCreate_tool_calling_agent agent_prompt);
      ECall (CAgentExecutor true);
      EPrint "Agent with RAG tool is ready."],
     Return ae, st).
Proof.
  intros Hr Ht Ha He.
  unfold create_agent_executor, bind, lib, print, ret. simpl.
  rewrite Hr. simpl. rewrite Ht. simpl. rewrite Ha. simpl. by rewrite He.
Qed.

(** ** Setup failures *)

Ltac only_own_message :=
  let f' := fresh "f'" in let Hin := fresh "Hin" in
  intros f' Hin; apply list_elem_of_In in Hin;
  unfold ingestion_trace, setup_trace in Hin; simpl in Hin;
  destruct f'; simpl in Hin |- *;
  repeat (destruct Hin as [Hin | Hin]; [ try discriminate Hin; try reflexivity | ]);
  try contradiction.

(** C5.  Each setup failure -- no API key, no URL, ingestion raising,
    the index build raising -- makes [main] return normally before the
    question loop starts, having printed the line of that failure and
    the line of no other; without an API key no prompt is shown, and
    with an empty URL ingestion is not attempted. *)
Theorem setup_failure_aborts (f : setup_failure) (st : state) :
  failure_occurs f st →
  ∃ t st',
    main st = (t, Return (), st')
    ∧ EPrint (failure_message f) ∈ t
    ∧ (∀ f', EPrint (failure_message f') ∈ t → cause_of f' = cause_of f)
    ∧ session_started t = false
    ∧ (cause_of f = NoCredential → prompts t = [] ∧ calls t = [])
    ∧ (cause_of f = NoURL → existsb is_ingestion_call (calls t) = false).
Proof.
  destruct f as [| |e|e]; simpl.
  - intros Hkey. eexists _, _. split; [ by apply main_missing_credential | ].
    repeat split; try done; [ set_solver | only_own_message ].
  - intros (Hkey & [llm Hllm] & rest & Hin).
    eexists _, _. split; [ by eapply main_empty_url | ].
    repeat split; try done; [ set_solver | only_own_message ].
  - intros (Hkey & [llm Hllm] & He & url & rest & Hurl & [Hload | (docs & Hload & Hsplit)]).
    + eexists _, _. split; [ by eapply main_load_fails | ].
      repeat split; try done; [ set_solver | only_own_message ].
    + eexists _, _. split; [ by eapply main_split_fails | ].
      repeat split; try done; [ set_solver | only_own_message ].
  - intros (Hkey & [llm Hllm] & He & url & rest & docs & splits & Hurl & Hload
            & Hsplit & Hne & [Hemb | (em & Hemb & Hchroma)]).
    + eexists _, _. split; [ by eapply main_embedding_fails | ].
      repeat split; try done; [ set_solver | only_own_message ].
    + eexists _, _. split; [ by eapply main_chroma_fails | ].
      repeat split; try done; [ set_solver | only_own_message ].
Qed.

(** C10.  When the loader succeeds and the splitter returns an empty
    list, [main] returns right after ingestion, as it does when
    ingestion fails: the events of [main] are those up to the URL prompt
    followed by those of [load_and_split_documents], no embedding model
    or vector store is built and the question loop does not start. *)
Theorem no_chunks_aborts (st : state) (llm : LLM) url rest docs :
  credential_present → llm_ready llm → url_given st url rest →
  WebBaseLoader_load url = Return docs →
  split_documents chunk_size chunk_overlap docs = Return [] →
  ∃ t,
    main st = (t, Return (), mkState rest (world st))
    ∧ load_and_split_documents url (mkState rest (world st)) =
        (drop (length (setup_trace url)) t, Return (Some []), mkState rest (world st))
    ∧ t = ingestion_trace url docs []
    ∧ existsb is_index_call (calls t) = false
    ∧ session_started t = false.
Proof.
  intros Hkey Hllm Hurl Hload Hsplit.
  exists (ingestion_trace url docs []).
  split; [ by eapply main_no_chunks | ].
  split; [ | done ].
  unfold load_and_split_documents, try_except, bind, lib, print, ret. simpl.
  rewrite Hload. simpl. by rewrite Hsplit.
Qed.

End Properties.

(** * Further properties of the controller *)

Section Paths.
Context `{Lib : Collaborators}.

Ltac run_setup :=
  unfold main, setup_environment, initialize_llm, load_and_split_documents,
    create_vector_store, bind, try_except, lib, print, ret, input; simpl.

Ltac to_url_prompt Hkey Hllm Hin :=
  let Hc := fresh in let Hb := fresh in
  destruct Hllm as [Hc Hb];
  run_setup; rewrite Hkey; simpl; rewrite Hc; simpl; rewrite Hb; simpl;
  rewrite Hin; simpl.

Ltac to_agent Hkey Hllm Hurl Hidx :=
  let Hin := fresh in let Hne := fresh in
  let Hload := fresh in let Hsplit := fresh in let Hsome := fresh in
  let em := fresh "em" in let Hemb := fresh in let Hchroma := fresh in
  let Hvsb := fresh in
  destruct Hurl as [Hin Hne];
  destruct Hidx as (Hload & Hsplit & Hsome & (em & Hemb & Hchroma) & Hvsb);
  to_url_prompt Hkey Hllm Hin;
  rewrite bool_decide_eq_false_2 by done;
  rewrite Hload; simpl; rewrite Hsplit; simpl;
  match goal with |- context [match ?s with [] => _ | _ :: _ => _ end] =>
    destruct s; [ done | ] end;
  rewrite Hemb; simpl; rewrite Hchroma; simpl; rewrite Hvsb; simpl.

(** ** Failures that the claims leave out *)

(** X1.  When the constructor of the language-model client raises an
    error, [main] prints the line of [initialize_llm] with the cause and
    returns normally: the URL prompt is not shown, no library is called
    after the client's constructor, standard input is left as it was
    and the question loop does not start. *)
Theorem llm_failure_aborts st e :
  credential_present → exn_is_exception e = true →
  ChatGroq "meta-llama/llama-4-scout-17b-16e-instruct" 0 = Raise e →
  ∃ t,
    main st = (t, Return (), st)
    ∧ EPrint ("Error initializing Groq LLM: " +:+ exn_str e) ∈ t
    ∧ prompts t = []
    ∧ calls t = [CChatGroq "meta-llama/llama-4-scout-17b-16e-instruct" 0]
    ∧ session_started t = false.
Proof.
  intros Hkey He Hllm. eexists. split.
  - run_setup. rewrite Hkey. simpl. by rewrite Hllm, He.
  - repeat split; try done.
    apply list_elem_of_In. simpl. auto.
Qed.

(** X2.  When standard input is at its end at the URL prompt, [main]
    does not return: the [EOFError] of [input] leaves it, after the
    prompt was shown and before any ingestion. *)
Theorem main_eof_at_url_prompt st llm :
  credential_present → llm_ready llm → stdin st = [] →
  main st =
    ([EPrint "Groq API Key loaded successfully from .env file.";
      ECall (CChatGroq "meta-llama/llama-4-scout-17b-16e-instruct" 0);
      EPrint "Groq LLM (Llama3-8b) initialized.";
      EPrompt url_prompt],
     Raise EOFError, st).
Proof. intros Hkey Hllm Hin. by to_url_prompt Hkey Hllm Hin. Qed.

(** [main] from the creation of the agent on. *)
Lemma main_after_index st llm url rest docs splits vs :
  credential_present → llm_ready llm → url_given st url rest →
  index_built url docs splits vs →
  main st =
    let '(t, r, st') :=
      bind (create_agent_executor llm vs)
        (λ ae, if negb (AgentExecutor_bool ae) then ret ()
               else start_interactive_session ae)
        (mkState rest (world st)) in
    (index_trace url docs splits ++ t, r, st').
Proof.
  intros Hkey Hllm Hurl Hidx.
  to_agent Hkey Hllm Hurl Hidx.
  destruct (create_agent_executor llm vs _) as [[t [ae | e]] st']; simpl; [ | done ].
  destruct (AgentExecutor_bool ae); simpl.
  - by destruct (start_interactive_session ae st') as [[t' r'] st''].
  - by rewrite app_nil_r.
Qed.

(** X3.  [create_agent_executor] has no [try]: when one of its four
    library calls raises, of whatever class, the exception leaves
    [main], after the vector store was built and the line announcing
    the agent's creation was printed; the line that reports the agent
    as ready is not printed and the question loop does not start. *)
Theorem agent_creation_failure_escapes st llm url rest docs splits vs e :
  credential_present → llm_ready llm → url_given st url rest →
  index_built url docs splits vs →
  agent_creation_fails llm vs e →
  ∃ t,
    main st =
      (index_trace url docs splits ++ (EPrint "Creating RAG tool and agent..." :: t),
       Raise e, mkState rest (world st))
    ∧ (EPrint "Agent with RAG tool is ready." ∉ t)
    ∧ session_started (index_trace url docs splits) = false
    ∧ session_started t = false.
Proof.
  intros Hkey Hllm Hurl Hidx Hfail.
  rewrite (main_after_index _ _ _ _ _ _ _ Hkey Hllm Hurl Hidx).
  unfold create_agent_executor, bind, lib, print, ret. simpl.
  destruct Hfail
    as [Hr | (retriever & Hr & [Ht | (tool & Ht & [Ha | (agent & Ha & Hx)])])].
  all: rewrite Hr; simpl; try (rewrite Ht; simpl); try (rewrite Ha; simpl);
    try (rewrite Hx; simpl).
  all: eexists; split; [ reflexivity | ].
  all: split; [ | done ].
  all: intros Hin; apply list_elem_of_In in Hin; simpl in Hin;
    repeat (destruct Hin as [Hin | Hin]; [ discriminate Hin | ]); contradiction.
Qed.

(** ** The whole of [main] *)

(** X4.  When every step of the setup succeeds, [main] calls the
    libraries in the order loader, splitter, embedding model, vector
    store, retriever, tool, agent, executor, prints the banner, and then
    runs the question loop with that executor on the lines typed after
    the URL; the outcome of [main] is the outcome of the loop. *)
Theorem main_runs_session st llm url rest docs splits vs ae :
  credential_present → llm_ready llm → url_given st url rest →
  index_built url docs splits vs →
  agent_built llm vs ae → AgentExecutor_bool ae = true →
  main st =
    let '(t, r, st') := session_loop ae rest (world st) in
    (index_trace url docs splits ++ agent_trace ++ (EPrint <$> banner) ++ t, r, st').
Proof.
  intros Hkey Hllm Hurl Hidx (retriever & tool & agent & Hr & Ht & Ha & Hx) Hb.
  rewrite (main_after_index _ _ _ _ _ _ _ Hkey Hllm Hurl Hidx).
  unfold create_agent_executor, start_interactive_session, bind, lib, print, ret.
  simpl.
  rewrite Hr. simpl. rewrite Ht. simpl. rewrite Ha. simpl. rewrite Hx. simpl.
  rewrite Hb. simpl.
  by destruct (session_loop ae rest (world st)) as [[t r] st'].
Qed.

(** X5.  [main] never starts the question loop after a step of the
    setup went wrong: in every run that shows the banner, asks for a
    question or invokes the agent, the API key was present, the client
    was constructed, a non-empty URL was typed, ingestion gave at least
    one chunk, the vector store and the executor were built, and the
    objects tested by [if not] were true. *)
Theorem session_only_after_setup st t r st' :
  main st = (t, r, st') →
  session_started t = true →
  ∃ llm url rest docs splits vs ae,
    credential_present ∧ llm_ready llm ∧ url_given st url rest
    ∧ index_built url docs splits vs
    ∧ agent_built llm vs ae ∧ AgentExecutor_bool ae = true.
Proof.
  intros Hmain Hstart.
  unfold main, setup_environment, bind, print, ret in Hmain.
  destruct (str_truthy (environ !! "GROQ_API_KEY")) eqn:Hkey; simpl in Hmain;
    [ | injection Hmain as <- _ _; discriminate Hstart ].
  unfold initialize_llm, try_except, bind, lib, print, ret in Hmain. simpl in Hmain.
  destruct (ChatGroq "meta-llama/llama-4-scout-17b-16e-instruct" 0)
    as [llm | e] eqn:Hllm; simpl in Hmain.
  2: { destruct (exn_is_exception e); simpl in Hmain;
       injection Hmain as <- _ _; discriminate Hstart. }
  destruct (LLM_bool llm) eqn:Hllmb; simpl in Hmain;
    [ | injection Hmain as <- _ _; discriminate Hstart ].
  unfold input in Hmain.
  destruct (stdin st) as [|url rest] eqn:Hin; simpl in Hmain;
    [ injection Hmain as <- _ _; discriminate Hstart | ].
  case_bool_decide as Hurl; simpl in Hmain;
    [ injection Hmain as <- _ _; discriminate Hstart | ].
  unfold load_and_split_documents, try_except, bind, lib, print, ret in Hmain.
  simpl in Hmain.
  destruct (WebBaseLoader_load url) as [docs | e] eqn:Hload; simpl in Hmain.
  2: { destruct (exn_is_exception e); simpl in Hmain;
       injection Hmain as <- _ _; discriminate Hstart. }
  destruct (split_documents chunk_size chunk_overlap docs) as [splits | e] eqn:Hsplit;
    simpl in Hmain.
  2: { destruct (exn_is_exception e); simpl in Hmain;
       injection Hmain as <- _ _; discriminate Hstart. }
  destruct splits as [|d splits]; simpl in Hmain;
    [ injection Hmain as <- _ _; discriminate Hstart | ].
  unfold create_vector_store, try_except, bind, lib, print, ret in Hmain.
  simpl in Hmain.
  destruct (HuggingFaceEmbeddings "all-MiniLM-L6-v2") as [em | e] eqn:Hemb;
    simpl in Hmain.
  2: { destruct (exn_is_exception e); simpl in Hmain;
       injection Hmain as <- _ _; discriminate Hstart. }
  destruct (Chroma_from_documents (d :: splits) em) as [vs | e] eqn:Hchroma;
    simpl in Hmain.
  2: { destruct (exn_is_exception e); simpl in Hmain;
       injection Hmain as <- _ _; discriminate Hstart. }
  destruct (VectorStore_bool vs) eqn:Hvsb; simpl in Hmain;
    [ | injection Hmain as <- _ _; discriminate Hstart ].
  unfold create_agent_executor, bind, lib, print, ret in Hmain. simpl in Hmain.
  destruct (as_retriever vs retriever_k) as [retriever | e] eqn:Hret; simpl in Hmain;
    [ | injection Hmain as <- _ _; discriminate Hstart ].
  destruct (create_retriever_tool retriever tool_name tool_description)
    as [tool | e] eqn:Htool; simpl in Hmain;
    [ | injection Hmain as <- _ _; discriminate Hstart ].
  destruct (create_tool_calling_agent llm [tool] agent_prompt)
    as [agent | e] eqn:Hagent; simpl in Hmain;
    [ | injection Hmain as <- _ _; discriminate Hstart ].
  destruct (AgentExecutor_new agent [tool] true) as [ae | e] eqn:Hae; simpl in Hmain;
    [ | injection Hmain as <- _ _; discriminate Hstart ].
  destruct (AgentExecutor_bool ae) eqn:Haeb; simpl in Hmain;
    [ | injection Hmain as <- _ _; discriminate Hstart ].
  exists llm, url, rest, docs, (d :: splits), vs, ae.
  repeat split; try done; eauto.
  exists retriever, tool, agent. eauto.
Qed.

(** ** Whole sessions *)

(** The events and the state of one turn, whatever the agent does: one
    invocation, with the question, and standard input untouched. *)
Lemma answer_shape (ae : AgentExecutor) q st :
  invocations (answer ae q st).1.1 = [question q]
  ∧ stdin (answer ae q st).2 = stdin st.
Proof.
  unfold answer, try_except, bind, invoke, getitem, print, ret, raise. simpl.
  destruct (AgentExecutor_invoke ae {[ "input" := q ]} (world st)) as [[resp | e] w'];
    simpl.
  - by destruct (resp !! "output").
  - by destruct (exn_is_exception e).
Qed.

(** X7.  When no line typed is the sentinel and nobody interrupts the
    session, the loop hands every line to the agent, in order, and then
    ends with the [EOFError] of [input]: it does not return and it does
    not print the goodbye. *)
Theorem session_without_sentinel_hits_eof (ae : AgentExecutor) qs w :
  uninterrupted ae qs w →
  Forall (λ q, lower q ≠ "exit") qs →
  ∃ t w',
    session_loop ae qs w = (t, Raise EOFError, mkState [] w')
    ∧ invocations t = question <$> qs
    ∧ EPrint goodbye ∉ t.
Proof.
  intros Hcatch Hqs. revert w Hcatch.
  induction Hqs as [|q qs Hq Hqs IH]; intros w Hcatch.
  - exists [EPrompt question_prompt], w. repeat split.
    intros Hin. apply list_elem_of_In in Hin. simpl in Hin.
    destruct Hin as [Hin | []]. discriminate Hin.
  - assert (∃ line w1, line ≠ goodbye ∧ uninterrupted ae qs w1 ∧
      session_loop ae (q :: qs) w =
        let '(t, r, st) := session_loop ae qs w1 in
        ([EPrompt question_prompt; ERead q; ECall (CInvoke (question q));
          EPrint line] ++ t, r, st)) as (line & w1 & Hline & Hnext & Hturn).
    { simpl in Hcatch. unfold question in Hcatch.
      destruct (AgentExecutor_invoke ae {[ "input" := q ]} w)
        as [[resp | e] w1] eqn:Hinv.
      - destruct (resp !! "output") as [output|] eqn:Hout.
        + eexists _, w1.
          split; [ | split; [ exact Hcatch
                            | by apply turn_answered with (resp := resp) ] ].
          discriminate.
        + eexists _, w1.
          split; [ | split; [ exact Hcatch
                            | by apply turn_without_output_is_recovered
                                with (resp := resp) ] ].
          discriminate.
      - destruct Hcatch as [He Hcatch].
        eexists _, w1.
        split; [ | split; [ exact Hcatch | rewrite session_loop_cons;
          rewrite bool_decide_eq_false_2 by done;
          unfold answer, try_except, bind, invoke; simpl;
          rewrite Hinv, He; simpl;
          by destruct (session_loop ae qs w1) as [[t r] st] ] ].
        discriminate. }
    destruct (IH w1 Hnext) as (t & w' & Hloop & Hinvs & Hbye).
    rewrite Hloop in Hturn.
    eexists _, w'. split; [ exact Hturn | split ].
    + rewrite invocations_app, Hinvs. reflexivity.
    + intros Hin. apply elem_of_app in Hin as [Hin | Hin]; [ | done ].
      apply list_elem_of_In in Hin. simpl in Hin.
      destruct Hin as [Hin | [Hin | [Hin | [Hin | []]]]]; try discriminate Hin.
      by injection Hin as ->.
Qed.

(** X8.  The loop returns normally only through the sentinel: in a run
    that returns, the lines read are questions that are not the
    sentinel, each handed to the agent once and in order, followed by a
    line that lowers to [exit]; the goodbye is the last thing printed
    and the lines after the sentinel are still on standard input. *)
Theorem session_returns_only_by_sentinel (ae : AgentExecutor) lines w t st :
  session_loop ae lines w = (t, Return (), st) →
  ∃ qs s,
    lines = qs ++ s :: stdin st
    ∧ lower s = "exit"
    ∧ Forall (λ q, lower q ≠ "exit") qs
    ∧ invocations t = question <$> qs
    ∧ last t = Some (EPrint goodbye).
Proof.
  revert w t st. induction lines as [|q rest IH]; intros w t st.
  - rewrite session_loop_eof. intros [=].
  - rewrite session_loop_cons. cbv zeta. case_bool_decide as Hs.
    + intros [= <- <-]. exists [], q. by repeat split.
    + destruct (answer_shape ae q (mkState rest w)) as [Hinv _].
      destruct (answer ae q (mkState rest w)) as [[t1 [[] | e]] st1];
        cbn [fst snd] in Hinv; [ | intros [=] ].
      destruct (session_loop ae rest (world st1)) as [[t2 r2] st2] eqn:Hrest.
      intros [= <- -> <-].
      destruct (IH _ _ _ Hrest) as (qs & s & Hlines & Hlow & Hall & Hinvs & Hlast).
      exists (q :: qs), s. split; [ by rewrite Hlines | ].
      split; [ done | ]. split; [ by constructor | ]. split.
      * unfold invocations in *. simpl. by rewrite omap_app, Hinv, Hinvs.
      * change (last ([EPrompt question_prompt; ERead q] ++ t1 ++ t2)
                = Some (EPrint goodbye)).
        by rewrite !last_app, Hlast.
Qed.

(** X9.  In every run of the loop, however it ends, the agent is invoked
    on a prefix of the lines typed, each line once, in order and
    unchanged, and none of these lines is the sentinel.  When the loop
    returns, the line after that prefix is the sentinel it read, and
    what follows the sentinel is left on standard input; when the loop
    is left by an exception, exactly what follows the prefix is left. *)
Theorem session_invokes_a_prefix (ae : AgentExecutor) lines w :
  ∃ n,
    invocations (session_loop ae lines w).1.1 = question <$> take n lines
    ∧ Forall (λ q, lower q ≠ "exit") (take n lines)
    ∧ match (session_loop ae lines w).1.2 with
      | Return _ =>
          (∃ s, lines !! n = Some s ∧ lower s = "exit")
          ∧ stdin (session_loop ae lines w).2 = drop (S n) lines
      | Raise _ => stdin (session_loop ae lines w).2 = drop n lines
      end.
Proof.
  revert w. induction lines as [|q rest IH]; intros w.
  - exists 0. repeat split. constructor.
  - rewrite session_loop_cons. cbv zeta. case_bool_decide as Hs.
    + exists 0. split; [ done | ]. split; [ constructor | ].
      split; [ by exists q | done ].
    + destruct (answer_shape ae q (mkState rest w)) as [Hinv Hin].
      destruct (answer ae q (mkState rest w)) as [[t1 [[] | e]] st1];
        cbn [fst snd stdin] in Hinv, Hin.
      * destruct (IH (world st1)) as (n & Hn & Hall & Hrest).
        destruct (session_loop ae rest (world st1)) as [[t2 r2] st2].
        cbn [fst snd] in *.
        exists (S n). split; [ | split ].
        -- rewrite !invocations_app, Hinv, Hn. reflexivity.
        -- simpl. by constructor.
        -- exact Hrest.
      * cbn [fst snd].
        exists 1. split; [ | split ].
        -- rewrite invocations_app, Hinv. simpl. by destruct rest.
        -- simpl. destruct rest; by repeat constructor.
        -- exact Hin.
Qed.

(** ** The [try] blocks *)

(** X10.  A reply of the agent without the key [output] does not end the
    turn with an answer: the [KeyError] of [response['output']] is
    raised inside the [try], so the turn prints the error line with the
    quoted key and ends normally, and standard input is untouched. *)
Theorem answer_without_output (ae : AgentExecutor) q st resp w' :
  AgentExecutor_invoke ae (question q) (world st) = (Return resp, w') →
  resp !! "output" = None →
  answer ae q st =
    ([ECall (CInvoke (question q));
      EPrint (nl +:+ "An error occurred: 'output'")],
     Return (), mkState (stdin st) w').
Proof.
  intros Hinv Hout.
  unfold answer, try_except, bind, invoke, getitem, print, ret, raise. simpl.
  unfold question in Hinv. by rewrite Hinv, Hout.
Qed.

End Paths.

(** * Concrete sessions *)

Example session_one_question :
  run healthy ["https://example.org/llm"; "What is an LLM?"; "Exit"; "unread"]
      [reply "A large language model."]
  = (healthy_setup "https://example.org/llm"
     ++ [EPrompt question_prompt; ERead "What is an LLM?";
         ECall (CInvoke {[ "input" := "What is an LLM?" ]});
         EPrint (nl +:+ "Answer: A large language model.");
         EPrompt question_prompt; ERead "Exit"; EPrint goodbye],
     Return (), ["unread"]).
Proof. vm_compute. reflexivity. Qed.

Example session_error_then_padded_exit :
  run healthy ["https://example.org/llm"; "What is an LLM?"; " exit "; "EXIT"]
      [Raise ConnectionError; reply "Goodbye to you."]
  = (healthy_setup "https://example.org/llm"
     ++ [EPrompt question_prompt; ERead "What is an LLM?";
         ECall (CInvoke {[ "input" := "What is an LLM?" ]});
         EPrint (nl +:+ "An error occurred: Connection error.");
         EPrompt question_prompt; ERead " exit ";
         ECall (CInvoke {[ "input" := " exit " ]});
         EPrint (nl +:+ "Answer: Goodbye to you.");
         EPrompt question_prompt; ERead "EXIT"; EPrint goodbye],
     Return (), []).
Proof. vm_compute. reflexivity. Qed.

Example session_end_of_input :
  run healthy ["https://example.org/llm"] []
  = (healthy_setup "https://example.org/llm" ++ [EPrompt question_prompt],
     Raise EOFError, []).
Proof. vm_compute. reflexivity. Qed.

Example run_without_key :
  run no_key ["https://example.org/llm"; "What is an LLM?"] []
  = ([EPrint "ERROR: Groq API key not found.";
      EPrint "Please create a .env file and add your GROQ_API_KEY to it."],
     Return (), ["https://example.org/llm"; "What is an LLM?"]).
Proof. vm_compute. reflexivity. Qed.

Example run_with_empty_key :
  run empty_key ["https://example.org/llm"] []
  = ([EPrint "ERROR: Groq API key not found.";
      EPrint "Please create a .env file and add your GROQ_API_KEY to it."],
     Return (), ["https://example.org/llm"]).
Proof. vm_compute. reflexivity. Qed.

Example run_with_unreachable_page :
  run unreachable ["https://example.org/llm"; "What is an LLM?"] []
  = (setup_trace "https://example.org/llm"
     ++ [ECall (CWebBaseLoader_load "https://example.org/llm");
         EPrint "Error loading or splitting documents: Connection error."],
     Return (), ["What is an LLM?"]).
Proof. vm_compute. reflexivity. Qed.

Example run_interrupted :
  run healthy ["https://example.org/llm"; "What is an LLM?"; "exit"]
      [Raise KeyboardInterrupt]
  = (healthy_setup "https://example.org/llm"
     ++ [EPrompt question_prompt; ERead "What is an LLM?";
         ECall (CInvoke {[ "input" := "What is an LLM?" ]})],
     Raise KeyboardInterrupt, ["exit"]).
Proof. vm_compute. reflexivity. Qed.

Example run_with_blank_page :
  run blank_page ["https://example.org/blank"; "What is an LLM?"] []
  = (setup_trace "https://example.org/blank"
     ++ [ECall (CWebBaseLoader_load "https://example.org/blank");
         EPrint "Loaded 1 document(s) from the web.";
         ECall (CSplit_documents 1000 200 [page ""]);
         EPrint "Document split into 0 chunks."],
     Return (), ["What is an LLM?"]).
Proof. vm_compute. reflexivity. Qed.

(** ** The theorems at concrete sessions *)

(** [EXIT] typed while a question is still waiting on standard input. *)
Lemma exit_sentinel_ends_session_witness :
  lower "EXIT" = "exit"
  ∧ session_loop (Lib := scripted healthy) () ["EXIT"; "What is an LLM?"]
      [reply "A large language model."]
    = ([EPrompt question_prompt; ERead "EXIT"; EPrint goodbye], Return (),
       mkState (Lib := scripted healthy) ["What is an LLM?"]
         [reply "A large language model."]).
Proof.
  split; [ reflexivity | ].
  apply (exit_sentinel_ends_session (Lib := scripted healthy) ()
           "EXIT" ["What is an LLM?"] [reply "A large language model."]).
  left. reflexivity.
Defined.

(** A connection error on the first question, then a question that is
    answered, then the sentinel. *)
Lemma turn_error_is_recovered_witness :
  session_loop (Lib := scripted healthy) ()
      ["What is an LLM?"; "How large is it?"; "exit"]
      [Raise ConnectionError; reply "Billions of parameters."]
  = ([EPrompt question_prompt; ERead "What is an LLM?";
      ECall (CInvoke {[ "input" := "What is an LLM?" ]});
      EPrint (nl +:+ "An error occurred: Connection error.");
      EPrompt question_prompt; ERead "How large is it?";
      ECall (CInvoke {[ "input" := "How large is it?" ]});
      EPrint (nl +:+ "Answer: Billions of parameters.");
      EPrompt question_prompt; ERead "exit"; EPrint goodbye],
     Return (), mkState (Lib := scripted healthy) [] []).
Proof.
  refine (eq_trans
    (turn_error_is_recovered (Lib := scripted healthy) ()
       "What is an LLM?" ["How large is it?"; "exit"]
       [Raise ConnectionError; reply "Billions of parameters."]
       ConnectionError [reply "Billions of parameters."] _ _ _) _).
  - vm_compute. discriminate.
  - reflexivity.
  - reflexivity.
  - vm_compute. reflexivity.
Defined.

(** The sentinel with blanks around it goes to the agent, whose answer
    is printed; the sentinel typed after it ends the session. *)
Lemma non_sentinel_is_forwarded_witness :
  lower " exit " ≠ "exit"
  ∧ session_loop (Lib := scripted healthy) () [" exit "; "exit"]
      [reply "Did you mean to leave?"]
    = ([EPrompt question_prompt; ERead " exit ";
        ECall (CInvoke {[ "input" := " exit " ]});
        EPrint (nl +:+ "Answer: Did you mean to leave?");
        EPrompt question_prompt; ERead "exit"; EPrint goodbye],
       Return (), mkState (Lib := scripted healthy) [] []).
Proof.
  split; [ vm_compute; discriminate | ].
  refine (eq_trans
    (non_sentinel_is_forwarded (Lib := scripted healthy) ()
       " exit " ["exit"] [reply "Did you mean to leave?"] _) _).
  - left. vm_compute. discriminate.
  - vm_compute. reflexivity.
Defined.

(** The four setup failures, each on its own run. *)
Lemma setup_failure_aborts_witness :
  (∃ t st',
     main (Lib := scripted no_key)
       (mkState (Lib := scripted no_key) ["https://example.org/llm"] [])
     = (t, Return (), st')
     ∧ EPrint "ERROR: Groq API key not found." ∈ t
     ∧ session_started t = false ∧ prompts t = [])
  ∧ (∃ t st',
     main (Lib := scripted healthy)
       (mkState (Lib := scripted healthy) [""; "What is an LLM?"] [])
     = (t, Return (), st')
     ∧ EPrint "No URL provided. Exiting." ∈ t
     ∧ session_started t = false
     ∧ existsb is_ingestion_call (calls t) = false)
  ∧ (∃ t st',
     main (Lib := scripted unreachable)
       (mkState (Lib := scripted unreachable) ["https://example.org/llm"] [])
     = (t, Return (), st')
     ∧ EPrint "Error loading or splitting documents: Connection error." ∈ t
     ∧ session_started t = false)
  ∧ (∃ t st',
     main (Lib := scripted disk_full)
       (mkState (Lib := scripted disk_full) ["https://example.org/llm"] [])
     = (t, Return (), st')
     ∧ EPrint "Error creating vector store: disk full" ∈ t
     ∧ session_started t = false).
Proof.
  split; [ | split; [ | split ] ].
  - destruct (setup_failure_aborts (Lib := scripted no_key) MissingCredential
                (mkState (Lib := scripted no_key) ["https://example.org/llm"] []))
      as (t & st' & Hmain & Hmsg & _ & Hloop & Hquiet & _).
    + reflexivity.
    + exists t, st'. destruct (Hquiet eq_refl) as [Hprompts _]. auto.
  - destruct (setup_failure_aborts (Lib := scripted healthy) EmptyURL
                (mkState (Lib := scripted healthy) [""; "What is an LLM?"] []))
      as (t & st' & Hmain & Hmsg & _ & Hloop & _ & Hingest).
    + split; [ reflexivity | ]. split; [ exists (); split; reflexivity | ].
      exists ["What is an LLM?"]. reflexivity.
    + exists t, st'. auto.
  - destruct (setup_failure_aborts (Lib := scripted unreachable)
                (IngestionFailure ConnectionError)
                (mkState (Lib := scripted unreachable) ["https://example.org/llm"] []))
      as (t & st' & Hmain & Hmsg & _ & Hloop & _).
    + split; [ reflexivity | ]. split; [ exists (); split; reflexivity | ].
      split; [ reflexivity | ].
      exists "https://example.org/llm", []. split; [ split; [ reflexivity | discriminate ] | ].
      left. reflexivity.
    + exists t, st'. auto.
  - destruct (setup_failure_aborts (Lib := scripted disk_full)
                (IndexBuildFailure (Exn true "disk full"))
                (mkState (Lib := scripted disk_full) ["https://example.org/llm"] []))
      as (t & st' & Hmain & Hmsg & _ & Hloop & _).
    + split; [ reflexivity | ]. split; [ exists (); split; reflexivity | ].
      split; [ reflexivity | ].
      exists "https://example.org/llm", [], [page "LLMs are large."],
        [page "LLMs are large."].
      split; [ split; [ reflexivity | discriminate ] | ]. split; [ reflexivity | ]. split; [ reflexivity | ].
      split; [ discriminate | ]. right. exists (). split; reflexivity.
    + exists t, st'. auto.
Defined.

(** A page without text: the splitter returns no chunk. *)
Lemma no_chunks_aborts_witness :
  ∃ t,
    main (Lib := scripted blank_page)
      (mkState (Lib := scripted blank_page)
         ["https://example.org/blank"; "What is an LLM?"] [])
    = (t, Return (), mkState (Lib := scripted blank_page) ["What is an LLM?"] [])
    ∧ existsb is_index_call (calls t) = false
    ∧ session_started t = false.
Proof.
  destruct (no_chunks_aborts (Lib := scripted blank_page)
              (mkState (Lib := scripted blank_page)
                 ["https://example.org/blank"; "What is an LLM?"] [])
              () "https://example.org/blank" ["What is an LLM?"] [page ""])
    as (t & Hmain & _ & _ & Hindex & Hloop).
  - reflexivity.
  - split; reflexivity.
  - split; [ reflexivity | discriminate ].
  - reflexivity.
  - reflexivity.
  - exists t. auto.
Defined.

(** ** The further properties at concrete sessions *)

(** A key that the provider rejects when the client is constructed. *)
Lemma llm_failure_aborts_witness :
  ∃ t,
    main (Lib := scripted bad_key)
      (mkState (Lib := scripted bad_key) ["https://example.org/llm"] [])
    = (t, Return (), mkState (Lib := scripted bad_key) ["https://example.org/llm"] [])
    ∧ EPrint "Error initializing Groq LLM: Invalid API Key" ∈ t
    ∧ prompts t = []
    ∧ session_started t = false.
Proof.
  destruct (llm_failure_aborts (Lib := scripted bad_key)
              (mkState (Lib := scripted bad_key) ["https://example.org/llm"] [])
              AuthenticationError)
    as (t & Hmain & Hmsg & Hprompts & _ & Hloop).
  - reflexivity.
  - reflexivity.
  - reflexivity.
  - exists t. auto.
Defined.

(** Nothing at all on standard input. *)
Lemma main_eof_at_url_prompt_witness :
  main (Lib := scripted healthy) (mkState (Lib := scripted healthy) [] [])
  = ([EPrint "Groq API Key loaded successfully from .env file.";
      ECall (CChatGroq "meta-llama/llama-4-scout-17b-16e-instruct" 0);
      EPrint "Groq LLM (Llama3-8b) initialized.";
      EPrompt url_prompt],
     Raise EOFError, mkState (Lib := scripted healthy) [] []).
Proof.
  apply (main_eof_at_url_prompt (Lib := scripted healthy)
           (mkState (Lib := scripted healthy) [] []) ()).
  - reflexivity.
  - split; reflexivity.
  - reflexivity.
Defined.

(** The constructor of the executor raises, the three calls before it
    having succeeded. *)
Lemma agent_creation_failure_escapes_witness :
  ∃ t,
    main (Lib := broken_executor)
      (mkState (Lib := broken_executor) ["https://example.org/llm"; "What is an LLM?"] ())
    = (index_trace "https://example.org/llm" [page "LLMs are large."]
         [page "LLMs are large."]
       ++ (EPrint "Creating RAG tool and agent..." :: t),
       Raise ValidationError,
       mkState (Lib := broken_executor) ["What is an LLM?"] ())
    ∧ session_started t = false.
Proof.
  destruct (agent_creation_failure_escapes (Lib := broken_executor)
              (mkState (Lib := broken_executor)
                 ["https://example.org/llm"; "What is an LLM?"] ())
              () "https://example.org/llm" ["What is an LLM?"]
              [page "LLMs are large."] [page "LLMs are large."] () ValidationError)
    as (t & Hmain & _ & _ & Hloop).
  - reflexivity.
  - split; reflexivity.
  - split; [ reflexivity | discriminate ].
  - split; [ reflexivity | ]. split; [ reflexivity | ]. split; [ discriminate | ].
    split; [ exists (); split; reflexivity | reflexivity ].
  - right. exists (). split; [ reflexivity | ].
    right. exists (). split; [ reflexivity | ].
    right. exists (). split; reflexivity.
  - exists t. auto.
Defined.

(** A healthy setup followed by the sentinel. *)
Lemma main_runs_session_witness :
  main (Lib := scripted healthy)
    (mkState (Lib := scripted healthy) ["https://example.org/llm"; "exit"; "unread"] [])
  = (healthy_setup "https://example.org/llm"
     ++ [EPrompt question_prompt; ERead "exit"; EPrint goodbye],
     Return (), mkState (Lib := scripted healthy) ["unread"] []).
Proof.
  refine (eq_trans
    (main_runs_session (Lib := scripted healthy)
       (mkState (Lib := scripted healthy)
          ["https://example.org/llm"; "exit"; "unread"] [])
       () "https://example.org/llm" ["exit"; "unread"]
       [page "LLMs are large."] [page "LLMs are large."] () () _ _ _ _ _ _) _).
  - reflexivity.
  - split; reflexivity.
  - split; [ reflexivity | discriminate ].
  - split; [ reflexivity | ]. split; [ reflexivity | ]. split; [ discriminate | ].
    split; [ exists (); split; reflexivity | reflexivity ].
  - exists (), (), (). repeat split.
  - reflexivity.
  - vm_compute. reflexivity.
Defined.

(** The run above started the question loop, so its setup succeeded. *)
Lemma session_only_after_setup_witness :
  ∃ url rest docs splits,
    url_given (Lib := scripted healthy)
      (mkState (Lib := scripted healthy) ["https://example.org/llm"; "exit"] [])
      url rest
    ∧ index_built (Lib := scripted healthy) url docs splits ().
Proof.
  destruct (session_only_after_setup (Lib := scripted healthy)
              (mkState (Lib := scripted healthy) ["https://example.org/llm"; "exit"] [])
              (healthy_setup "https://example.org/llm"
               ++ [EPrompt question_prompt; ERead "exit"; EPrint goodbye])
              (Return ()) (mkState (Lib := scripted healthy) [] []))
    as (llm & url & rest & docs & splits & vs & ae & _ & _ & Hurl & Hidx & _).
  - vm_compute. reflexivity.
  - vm_compute. reflexivity.
  - destruct vs. exists url, rest, docs, splits. split; assumption.
Defined.

(** Two questions, the first of which fails, then the sentinel. *)
Lemma session_until_sentinel_witness :
  ∃ t w',
    session_loop (Lib := scripted healthy) ()
      (["What is an LLM?"; "How large is it?"] ++ "Exit" :: ["unread"])
      [Raise ConnectionError; reply "Billions of parameters."]
    = (t, Return (), mkState (Lib := scripted healthy) ["unread"] w')
    ∧ invocations t = question <$> ["What is an LLM?"; "How large is it?"].
Proof.
  apply (session_until_sentinel (Lib := scripted healthy) ()
           ["What is an LLM?"; "How large is it?"] "Exit" ["unread"]
           [Raise ConnectionError; reply "Billions of parameters."]).
  - simpl. split; [ reflexivity | exact I ].
  - repeat constructor; vm_compute; discriminate.
  - reflexivity.
Defined.

(** The same two questions, and then the end of input. *)
Lemma session_without_sentinel_hits_eof_witness :
  ∃ t w',
    session_loop (Lib := scripted healthy) ()
      ["What is an LLM?"; "How large is it?"]
      [Raise ConnectionError; reply "Billions of parameters."]
    = (t, Raise EOFError, mkState (Lib := scripted healthy) [] w')
    ∧ invocations t = question <$> ["What is an LLM?"; "How large is it?"]
    ∧ EPrint goodbye ∉ t.
Proof.
  apply (session_without_sentinel_hits_eof (Lib := scripted healthy) ()
           ["What is an LLM?"; "How large is it?"]
           [Raise ConnectionError; reply "Billions of parameters."]).
  - simpl. split; [ reflexivity | exact I ].
  - repeat constructor; vm_compute; discriminate.
Defined.

(** A session that returned: one question, then [EXIT]. *)
Lemma session_returns_only_by_sentinel_witness :
  ∃ qs s,
    ["What is an LLM?"; "EXIT"; "unread"] = qs ++ s :: ["unread"]
    ∧ lower s = "exit"
    ∧ Forall (λ q, lower q ≠ "exit") qs.
Proof.
  destruct (session_returns_only_by_sentinel (Lib := scripted healthy) ()
              ["What is an LLM?"; "EXIT"; "unread"]
              [reply "A large language model."]
              [EPrompt question_prompt; ERead "What is an LLM?";
               ECall (CInvoke {[ "input" := "What is an LLM?" ]});
               EPrint (nl +:+ "Answer: A large language model.");
               EPrompt question_prompt; ERead "EXIT"; EPrint goodbye]
              (mkState (Lib := scripted healthy) ["unread"] []))
    as (qs & s & Hlines & Hlow & Hqs & _).
  - vm_compute. reflexivity.
  - exists qs, s. exact (conj Hlines (conj Hlow Hqs)).
Defined.

(** The agent replies with an empty dictionary. *)
Lemma answer_without_output_witness :
  answer (Lib := scripted healthy) () "What is an LLM?"
    (mkState (Lib := scripted healthy) ["exit"] [Return ∅])
  = ([ECall (CInvoke (question "What is an LLM?"));
      EPrint (nl +:+ "An error occurred: 'output'")],
     Return (), mkState (Lib := scripted healthy) ["exit"] []).
Proof.
  apply (answer_without_output (Lib := scripted healthy) () "What is an LLM?"
           (mkState (Lib := scripted healthy) ["exit"] [Return ∅]) ∅ []).
  - reflexivity.
  - reflexivity.
Defined.
